(** * IAQ Exceedance Predictor: the feature encoder and the prediction runner

    A shallow embedding of [app.py].  The script is a Streamlit page: it
    renders a form with nine select boxes, derives four small feature
    vectors from the selections, loads one pickled classifier per target
    parameter and displays each classifier's label and probability.

    - strings are [string], compared with [==] as Python does;
    - the dictionary [activity_pm25_map] is a [gmap string Z], and a
      subscript on a missing key raises [KeyError];
    - the four pickled classifiers are not part of the repository: they
      enter as an oracle [joblib_load] from file names to models;
    - the form's widgets are the script's input: the nine selections are
      a [FormState] and the button a Boolean, and the widgets themselves
      are not recorded among the displayed elements;
    - what the page displays and which files it opens is the state of a
      small state-and-exception monad; an exception stops the script and
      keeps what was displayed so far. *)

From stdpp Require Import gmap strings list.
From Stdlib Require Import ZArith QArith.

#[local] Open Scope string_scope.
#[local] Open Scope Z_scope.
#[local] Open Scope list_scope.

(** ** Exceptions and the page state *)

(** The exceptions the script can end with.  [LoadError] stands for
    whatever [joblib.load] raises on a missing or unreadable file,
    [PredictError] for whatever a classifier raises on a feature matrix
    it does not accept. *)
Inductive exn : Type :=
  | KeyError (key : string)
  | IndexError
  | LoadError (model_path : string)
  | PredictError.

(** One element rendered on the page. *)
Inductive output : Type :=
  | Title (body : string)
  | Header (body : string)
  | Subheader (body : string)
  | Markdown (body : string) (unsafe_allow_html : bool).

(** The world the script acts on: the elements displayed so far, oldest
    first, and the files handed to [joblib.load] so far, oldest first. *)
Record World : Type := mkWorld {
  shown : list output;
  load_calls : list string
}.

Definition M (A : Type) : Type := World -> (exn + A) * World.

Definition ret {A} (a : A) : M A := fun w => (inr a, w).

Definition raise {A} (e : exn) : M A := fun w => (inl e, w).

Definition bind {A B} (m : M A) (f : A -> M B) : M B :=
  fun w =>
    match m w with
    | (inr a, w') => f a w'
    | (inl e, w') => (inl e, w')
    end.

Definition lift {A} (r : exn + A) : M A := fun w => (r, w).

Definition display (o : output) : M unit :=
  fun w => (inr tt, mkWorld (shown w ++ [o]) (load_calls w)).

Declare Scope script_scope.
Delimit Scope script_scope with script.
Notation "x <- c1 ;; c2" := (bind c1 (fun x => c2))
  (at level 100, c1 at next level, right associativity) : script_scope.
Notation "c1 ;; c2" := (bind c1 (fun _ => c2))
  (at level 100, right associativity) : script_scope.
#[local] Open Scope script_scope.

(** ** The input form *)

(** The choices each [st.selectbox] offers. *)
Definition occupancy_options : list string :=
  ["One resident"; "More than one residents"].
Definition activity_options : list string :=
  ["Sleeping"; "Sitting"; "Watching TV"; "Working";
   "Having Dinner"; "Cleaning"; "Dressing"; "Cooking"; "Smoking"].
Definition window_options : list string := ["Closed"; "Open"].
Definition ac_options : list string := ["Off"; "On"].
Definition ach_options : list string :=
  ["Meet Thai regulation"; "Not meet Thai regulation"].
Definition airpurifier_options : list string := ["Off"; "On"].
Definition outdoor_temp_options : list string := ["≤29"; ">29"].
Definition outdoor_pm_options : list string := ["≤25"; ">25"].
Definition outdoor_rh_options : list string := ["≤70"; ">70"].

(** The nine selections of one submission, under the names the script
    binds them to. *)
Record FormState : Type := mkForm {
  occupancy_label : string;
  activity : string;
  window : string;
  ac : string;
  ach : string;
  airpurifier : string;
  outdoor_temp : string;
  outdoor_pm : string;
  outdoor_rh : string
}.

(** A select box returns one of its options. *)
Definition valid_form (fs : FormState) : Prop :=
  occupancy_label fs ∈ occupancy_options ∧
  activity fs ∈ activity_options ∧
  window fs ∈ window_options ∧
  ac fs ∈ ac_options ∧
  ach fs ∈ ach_options ∧
  airpurifier fs ∈ airpurifier_options ∧
  outdoor_temp fs ∈ outdoor_temp_options ∧
  outdoor_pm fs ∈ outdoor_pm_options ∧
  outdoor_rh fs ∈ outdoor_rh_options.

#[global] Instance valid_form_dec fs : Decision (valid_form fs).
Proof. unfold valid_form. apply _. Defined.

(** ** Helper functions *)

(** [def binary(value, true_value): return 1 if value == true_value else 0] *)
Definition binary {A} `{EqDecision A} (value true_value : A) : Z :=
  if decide (value = true_value) then 1 else 0.

(** Activity-related PM2.5 emission levels, in the order of the dict
    literal. *)
Definition activity_pm25_map : gmap string Z :=
  list_to_map
    [("Sleeping", 1); ("Sitting", 1); ("Watching TV", 1); ("Working", 1);
     ("Having Dinner", 1); ("Dressing", 1); ("Cleaning", 1);
     ("Cooking", 2); ("Smoking", 2)].

(** [d[key]]: the value, or [KeyError]. *)
Definition subscript (d : gmap string Z) (key : string) : exn + Z :=
  match d !! key with
  | Some v => inr v
  | None => inl (KeyError key)
  end.

(** [xs[i]] for a non-negative constant [i]: the element, or
    [IndexError]. *)
Definition index {A} (xs : list A) (i : nat) : exn + A :=
  match xs !! i with
  | Some x => inr x
  | None => inl IndexError
  end.

(** ** Module-level names the feature functions read *)

(** The selections together with the two names derived from them at
    module level: [occupancy] and [activity_pm25]. *)
Record Globals : Type := mkGlobals {
  form : FormState;
  occupancy : Z;
  activity_pm25 : Z
}.

(** [occupancy = 1 if occupancy_label == "One resident" else 2] *)
Definition occupancy_of (fs : FormState) : Z :=
  if decide (occupancy_label fs = "One resident") then 1 else 2.

(** The bindings made before the feature functions are defined;
    [activity_pm25 = activity_pm25_map[activity]] is the one statement
    among them that can raise. *)
Definition module_globals (fs : FormState) : exn + Globals :=
  match subscript activity_pm25_map (activity fs) with
  | inr sev => inr (mkGlobals fs (occupancy_of fs) sev)
  | inl e => inl e
  end.

(** ** Feature vectors *)

(** Each function returns a matrix of one row, as scikit-learn expects. *)
Definition get_features_temp (g : Globals) : list (list Z) :=
  [[binary (outdoor_temp (form g)) "≤29";
    binary (window (form g)) "Open";
    binary (ac (form g)) "Off"]].

Definition get_features_rh (g : Globals) : list (list Z) :=
  [[binary (outdoor_rh (form g)) ">70";
    binary (window (form g)) "Open";
    binary (ac (form g)) "On"]].

Definition get_features_co2 (g : Globals) : list (list Z) :=
  [[occupancy g;
    binary (window (form g)) "Open";
    binary (ach (form g)) "Meet Thai regulation"]].

Definition get_features_pm25 (g : Globals) : list (list Z) :=
  [[binary (outdoor_pm (form g)) ">25";
    binary (window (form g)) "Open";
    activity_pm25 g;
    binary (airpurifier (form g)) "On"]].

(** ** The prediction runner *)

Section Runner.

(** Class labels and probabilities are whatever the pickled
    classifiers return.  [truthy] is Python's truth value of a label,
    [percent] is the format [f"{exceed_prob * 100:.1f}%"]. *)
Variables Label Prob : Type.
Variable truthy : Label -> bool.
Variable percent : Prob -> string.

(** A loaded classifier: [predict] returns one label per row and
    [predict_proba] one row of class probabilities per row; either may
    raise instead. *)
Record Model : Type := mkModel {
  model_predict : list (list Z) -> option (list Label);
  model_predict_proba : list (list Z) -> option (list (list Prob))
}.

(** The model files on disk: [None] when [joblib.load] raises. *)
Variable joblib_load : string -> option Model.

Definition load (model_path : string) : M Model :=
  fun w =>
    let w' := mkWorld (shown w) (load_calls w ++ [model_path]) in
    match joblib_load model_path with
    | Some model => (inr model, w')
    | None => (inl (LoadError model_path), w')
    end.

Definition call {A} (r : option A) : M A :=
  match r with
  | Some a => ret a
  | None => raise PredictError
  end.

Definition predict (model_path : string) (features : list (list Z))
  : M (Label * Prob) :=
  model <- load model_path ;;
  labels <- call (model_predict model features) ;;
  prediction <- lift (index labels 0) ;;
  probas <- call (model_predict_proba model features) ;;
  row <- lift (index probas 0) ;;
  exceed_prob <- lift (index row 1) ;;
  ret (prediction, exceed_prob).

(** The line [show_result] renders. *)
Definition result_line (name : string) (prediction : Label)
    (exceed_prob : Prob) : output :=
  let emoji := if truthy prediction then "⚠️ Exceeded" else "✅ Within Limit" in
  let color := if truthy prediction then "red" else "green" in
  Markdown
    ("<b style='color:" +:+ color +:+ "'>" +:+ name +:+ ":</b> " +:+ emoji +:+ " "
     +:+ "(<i>" +:+ percent exceed_prob +:+ " chance to exceed</i>)")
    true.

Definition show_result (name : string) (prediction : Label)
    (exceed_prob : Prob) : M unit :=
  display (result_line name prediction exceed_prob).

(** ** The script *)

Definition page_head : list output :=
  [Title "🔬 IAQ Exceedance Predictor";
   Markdown
     ("This tool predicts whether indoor air quality parameters will exceed safe thresholds "
      +:+ "based on selected occupant behavior and environmental conditions.")
     false;
   Header "📥 Input Factors"].

Definition results_head : output := Subheader "🔍 Prediction Results".

(** The block under [if submitted:]. *)
Definition run_predictions (g : Globals) : M unit :=
  display results_head ;;
  temp <- predict "model_Temp.pkl" (get_features_temp g) ;;
  rh <- predict "model_RH.pkl" (get_features_rh g) ;;
  pm25 <- predict "model_PM25.pkl" (get_features_pm25 g) ;;
  co2 <- predict "model_CO2.pkl" (get_features_co2 g) ;;
  show_result "🌡️ Temperature" (fst temp) (snd temp) ;;
  show_result "💧 Relative Humidity" (fst rh) (snd rh) ;;
  show_result "🫁 PM2.5" (fst pm25) (snd pm25) ;;
  show_result "😮‍💨 CO2" (fst co2) (snd co2).

(** One run of [app.py] with the selections [fs]; [submitted] tells
    whether the form's button was pressed. *)
Definition app (fs : FormState) (submitted : bool) : M unit :=
  display (Title "🔬 IAQ Exceedance Predictor") ;;
  display
    (Markdown
       ("This tool predicts whether indoor air quality parameters will exceed safe thresholds "
        +:+ "based on selected occupant behavior and environmental conditions.")
       false) ;;
  display (Header "📥 Input Factors") ;;
  g <- lift (module_globals fs) ;;
  if submitted then run_predictions g else ret tt.

End Runner.

(** ** The scenarios of the specification *)

(** One resident sleeping, window closed, A/C on, ventilation meeting the
    regulation, purifier off, hot outside, low outdoor PM2.5 and
    humidity. *)
Definition scenario_form : FormState :=
  mkForm "One resident" "Sleeping" "Closed" "On" "Meet Thai regulation"
         "Off" ">29" "≤25" "≤70".

(** [fs'] is [fs] with the activity changed to smoking and the air
    purifier switched on, every other selection kept. *)
Definition smoking_with_purifier (fs fs' : FormState) : Prop :=
  activity fs' = "Smoking" ∧
  airpurifier fs' = "On" ∧
  occupancy_label fs' = occupancy_label fs ∧
  window fs' = window fs ∧
  ac fs' = ac fs ∧
  ach fs' = ach fs ∧
  outdoor_temp fs' = outdoor_temp fs ∧
  outdoor_pm fs' = outdoor_pm fs ∧
  outdoor_rh fs' = outdoor_rh fs.

(** The four model files in the order the script opens them. *)
Definition model_paths : list string :=
  ["model_Temp.pkl"; "model_RH.pkl"; "model_PM25.pkl"; "model_CO2.pkl"].

(** Two forms with the same nine selections. *)
Definition same_selections (fs1 fs2 : FormState) : Prop :=
  occupancy_label fs1 = occupancy_label fs2 ∧
  activity fs1 = activity fs2 ∧
  window fs1 = window fs2 ∧
  ac fs1 = ac fs2 ∧
  ach fs1 = ach fs2 ∧
  airpurifier fs1 = airpurifier fs2 ∧
  outdoor_temp fs1 = outdoor_temp fs2 ∧
  outdoor_pm fs1 = outdoor_pm fs2 ∧
  outdoor_rh fs1 = outdoor_rh fs2.

(** The values an indicator position and a level position can take. *)
Definition indicator_value (x : Z) : Prop := x = 0 ∨ x = 1.
Definition level_value (x : Z) : Prop := x = 1 ∨ x = 2.

(** Sample classifiers, with Boolean labels and rational probabilities:
    [constant_model] answers every matrix with one label and one row of
    two class probabilities. *)
Definition constant_model (label : bool) (p0 p1 : Q) : Model bool Q :=
  mkModel bool Q (fun _ => Some [label]) (fun _ => Some [[p0; p1]]).

(** A disk where [model_Temp.pkl] is missing and the other three files
    load. *)
Definition disk_without_temp (model_path : string) : option (Model bool Q) :=
  if decide (model_path ∈ ["model_RH.pkl"; "model_PM25.pkl"; "model_CO2.pkl"])
  then Some (constant_model false (9 # 10) (1 # 10))
  else None.

(** A disk whose every file holds a classifier that calls "within limit"
    while giving the exceeding class nine chances in ten. *)
Definition disk_of_contrarians (model_path : string) : option (Model bool Q) :=
  Some (constant_model false (1 # 10) (9 # 10)).

Definition sample_truthy (label : bool) : bool := label.

Definition sample_percent (p : Q) : string :=
  if Qeq_bool p (1 # 10) then "10.0%" else "90.0%".

Definition empty_world : World := mkWorld [] [].

(** A form whose activity is none of the select box's choices, as a
    caller bypassing the form could hand over. *)
Definition jogging_form : FormState :=
  mkForm "One resident" "Jogging" "Closed" "On" "Meet Thai regulation"
         "Off" ">29" "≤25" "≤70".

(** A disk whose classifiers were fitted on a single class: their
    probability rows have one column. *)
Definition disk_of_single_class (model_path : string) : option (Model bool Q) :=
  Some (mkModel bool Q (fun _ => Some [true]) (fun _ => Some [[1 # 1]])).

(** The file [model_path] loads and its classifier answers [features]
    with at least one label, the first being [label], and a first
    probability row of at least two entries, the second being
    [exceed_prob]. *)
Definition answers {Label Prob : Type}
    (joblib_load : string -> option (Model Label Prob))
    (model_path : string) (features : list (list Z))
    (label : Label) (exceed_prob : Prob) : Prop :=
  ∃ model labels probas row,
    joblib_load model_path = Some model ∧
    model_predict _ _ model features = Some labels ∧
    labels !! 0%nat = Some label ∧
    model_predict_proba _ _ model features = Some probas ∧
    probas !! 0%nat = Some row ∧
    row !! 1%nat = Some exceed_prob.

(** ** The feature functions as Python calls them

    The four feature functions take no argument: each reads module-level
    names when it is called.  The script calls them at four different
    points of the run block, and by then the module namespace holds more
    than the names bound from the form: the imported modules, the
    columns, the submit flag and the predictions made so far. *)

(** What a module-level name can be bound to: a string, an integer, or
    some other object, told apart from the others by its identity.  Two
    values are [==] when they are the same string, the same integer or
    the same object. *)
Inductive pyval : Type :=
  | PyStr (s : string)
  | PyInt (n : Z)
  | PyObj (id : nat).

#[global] Instance pyval_eq_dec : EqDecision pyval.
Proof. solve_decision. Defined.

Module Py.

(** The feature functions on a module namespace: [None] is the
    [NameError] of a name that is not bound. *)
Definition get_features_temp (ns : gmap string pyval)
  : option (list (list pyval)) :=
  outdoor_temp ← ns !! "outdoor_temp";
  window ← ns !! "window";
  ac ← ns !! "ac";
  Some [[PyInt (binary outdoor_temp (PyStr "≤29"));
         PyInt (binary window (PyStr "Open"));
         PyInt (binary ac (PyStr "Off"))]].

Definition get_features_rh (ns : gmap string pyval)
  : option (list (list pyval)) :=
  outdoor_rh ← ns !! "outdoor_rh";
  window ← ns !! "window";
  ac ← ns !! "ac";
  Some [[PyInt (binary outdoor_rh (PyStr ">70"));
         PyInt (binary window (PyStr "Open"));
         PyInt (binary ac (PyStr "On"))]].

Definition get_features_co2 (ns : gmap string pyval)
  : option (list (list pyval)) :=
  occupancy ← ns !! "occupancy";
  window ← ns !! "window";
  ach ← ns !! "ach";
  Some [[occupancy;
         PyInt (binary window (PyStr "Open"));
         PyInt (binary ach (PyStr "Meet Thai regulation"))]].

Definition get_features_pm25 (ns : gmap string pyval)
  : option (list (list pyval)) :=
  outdoor_pm ← ns !! "outdoor_pm";
  window ← ns !! "window";
  activity_pm25 ← ns !! "activity_pm25";
  airpurifier ← ns !! "airpurifier";
  Some [[PyInt (binary outdoor_pm (PyStr ">25"));
         PyInt (binary window (PyStr "Open"));
         activity_pm25;
         PyInt (binary airpurifier (PyStr "On"))]].

End Py.

(** The names the module-level statements bind from the form, in the
    order of the script: the nine selections, [occupancy] and
    [activity_pm25].  No later statement of the script binds any of
    them again, so a namespace of the run block holds them all, beside
    whatever else it holds. *)
Definition form_names (g : Globals) : gmap string pyval :=
  list_to_map
    [("occupancy_label", PyStr (occupancy_label (form g)));
     ("occupancy", PyInt (occupancy g));
     ("activity", PyStr (activity (form g)));
     ("window", PyStr (window (form g)));
     ("ac", PyStr (ac (form g)));
     ("ach", PyStr (ach (form g)));
     ("airpurifier", PyStr (airpurifier (form g)));
     ("outdoor_temp", PyStr (outdoor_temp (form g)));
     ("outdoor_pm", PyStr (outdoor_pm (form g)));
     ("outdoor_rh", PyStr (outdoor_rh (form g)));
     ("activity_pm25", PyInt (activity_pm25 g))].

(** The namespace of a submitted run on the scenario form when
    [get_features_temp] is called: the imports, the form's names, the
    submit flag and the columns of the run block. *)
Definition namespace_before_predictions : gmap string pyval :=
  <["col2" := PyObj 6]> (<["col1" := PyObj 5]> (<["submitted" := PyInt 1]>
    (form_names (mkGlobals scenario_form 1 1) ∪
     list_to_map [("st", PyObj 0); ("np", PyObj 1); ("joblib", PyObj 2)]))).

(** The same namespace when [get_features_co2] is called, after three
    predictions have been bound. *)
Definition namespace_after_predictions : gmap string pyval :=
  <["pm25_prob" := PyObj 12]> (<["pm25_pred" := PyInt 0]>
  (<["rh_prob" := PyObj 11]> (<["rh_pred" := PyInt 1]>
  (<["temp_prob" := PyObj 10]> (<["temp_pred" := PyInt 0]>
     namespace_before_predictions))))).

(** * Properties of the feature encoder *)

(** Split a membership in a literal list into its cases. *)
Ltac options_cases H :=
  repeat (apply elem_of_cons in H as [H | H]; [subst |]);
  try (apply elem_of_nil in H; destruct H).

(** Settle a closed decidable proposition by evaluation. *)
Ltac by_decide := refine (bool_decide_unpack _ _); vm_compute; exact I.

Lemma binary_cases {A} `{EqDecision A} (value true_value : A) :
  binary value true_value = 0 ∨ binary value true_value = 1.
Proof. unfold binary. case_decide; auto. Qed.

Lemma binary_eq {A} `{EqDecision A} (value true_value : A) :
  value = true_value -> binary value true_value = 1.
Proof. intros ->. unfold binary. by rewrite decide_True. Qed.

Lemma binary_ne {A} `{EqDecision A} (value true_value : A) :
  value ≠ true_value -> binary value true_value = 0.
Proof. intros Hne. unfold binary. by rewrite decide_False. Qed.

(** Whatever the dictionary holds is 1 or 2. *)
Lemma activity_pm25_map_values (a : string) (v : Z) :
  activity_pm25_map !! a = Some v -> v = 1 ∨ v = 2.
Proof.
  intros Hv. apply elem_of_list_to_map_2 in Hv.
  options_cases Hv; inversion Hv; auto.
Qed.

(** The dictionary has a key for every choice of the activity box. *)
Lemma activity_pm25_map_total (a : string) :
  a ∈ activity_options -> is_Some (activity_pm25_map !! a).
Proof. intros Ha. options_cases Ha; by eexists. Qed.

Lemma module_globals_inr (fs : FormState) (g : Globals) :
  module_globals fs = inr g ->
  form g = fs ∧ occupancy g = occupancy_of fs ∧
  activity_pm25_map !! activity fs = Some (activity_pm25 g).
Proof.
  unfold module_globals, subscript.
  destruct (activity_pm25_map !! activity fs) as [v|]; [|discriminate].
  intros [= <-]. auto.
Qed.

Lemma module_globals_valid (fs : FormState) :
  activity fs ∈ activity_options ->
  ∃ v, activity_pm25_map !! activity fs = Some v ∧
       module_globals fs = inr (mkGlobals fs (occupancy_of fs) v).
Proof.
  intros Ha. destruct (activity_pm25_map_total _ Ha) as [v Hv].
  exists v. split; [done|]. unfold module_globals, subscript. by rewrite Hv.
Qed.

(** C2.  For each of the nine activities the select box offers, the
    subscript [activity_pm25_map[activity]] succeeds and yields 1, except
    for "Cooking" and "Smoking", where it yields 2. *)
Theorem activity_severity (a : string) :
  a ∈ activity_options ->
  subscript activity_pm25_map a =
    inr (if decide (a = "Cooking" ∨ a = "Smoking") then 2 else 1).
Proof. intros Ha. options_cases Ha; reflexivity. Qed.

Lemma activity_severity_witness :
  "Cooking" ∈ activity_options ∧ subscript activity_pm25_map "Cooking" = inr 2.
Proof.
  assert (Hin : "Cooking" ∈ activity_options) by by_decide.
  split; [exact Hin | exact (activity_severity "Cooking" Hin)].
Defined.

(** C3.  On the scenario form the module-level bindings succeed and the
    encoder produces temperature [0,0,0], relative humidity [0,0,1],
    CO2 [1,0,1] and PM2.5 [0,0,1,0]. *)
Theorem scenario_vectors :
  ∃ g, module_globals scenario_form = inr g ∧
       get_features_temp g = [[0; 0; 0]] ∧
       get_features_rh g = [[0; 0; 1]] ∧
       get_features_co2 g = [[1; 0; 1]] ∧
       get_features_pm25 g = [[0; 0; 1; 0]].
Proof. eexists. split; [reflexivity|]. repeat split. Qed.

(** C4.  For every form the select boxes can produce, the CO2 vector is
    [occupancy count, window indicator, ventilation indicator] in that
    order: the count is 1 for one resident and 2 for more than one, the
    second element is 1 exactly when the window is open and the third is
    1 exactly when the air change rate meets the regulation. *)
Theorem co2_vector (fs : FormState) :
  valid_form fs ->
  ∃ g count w_open ach_ok,
    module_globals fs = inr g ∧
    get_features_co2 g = [[count; w_open; ach_ok]] ∧
    (occupancy_label fs = "One resident" -> count = 1) ∧
    (occupancy_label fs = "More than one residents" -> count = 2) ∧
    (window fs = "Open" -> w_open = 1) ∧
    (window fs = "Closed" -> w_open = 0) ∧
    (ach fs = "Meet Thai regulation" -> ach_ok = 1) ∧
    (ach fs = "Not meet Thai regulation" -> ach_ok = 0).
Proof.
  intros (_ & Ha & _).
  destruct (module_globals_valid fs Ha) as (v & _ & Hg).
  exists (mkGlobals fs (occupancy_of fs) v), (occupancy_of fs),
    (binary (window fs) "Open"), (binary (ach fs) "Meet Thai regulation").
  split; [exact Hg|]. split; [reflexivity|].
  unfold occupancy_of.
  repeat split; intros ->; reflexivity.
Qed.

Lemma co2_vector_witness :
  valid_form scenario_form ∧
  ∃ g count w_open ach_ok,
    module_globals scenario_form = inr g ∧
    get_features_co2 g = [[count; w_open; ach_ok]] ∧
    (occupancy_label scenario_form = "One resident" -> count = 1) ∧
    (occupancy_label scenario_form = "More than one residents" -> count = 2) ∧
    (window scenario_form = "Open" -> w_open = 1) ∧
    (window scenario_form = "Closed" -> w_open = 0) ∧
    (ach scenario_form = "Meet Thai regulation" -> ach_ok = 1) ∧
    (ach scenario_form = "Not meet Thai regulation" -> ach_ok = 0).
Proof.
  assert (Hv : valid_form scenario_form) by by_decide.
  split; [exact Hv | exact (co2_vector scenario_form Hv)].
Defined.

(** C5.  When a form is changed to activity "Smoking" and purifier "On"
    and nothing else, the temperature, humidity and CO2 vectors stay as
    they were, the first two PM2.5 elements stay as they were, the third
    PM2.5 element is 2 and the fourth is 1. *)
Theorem smoking_with_purifier_frame (fs fs' : FormState) (g : Globals) :
  smoking_with_purifier fs fs' ->
  module_globals fs = inr g ->
  ∃ g' pm w_open sev pur,
    module_globals fs' = inr g' ∧
    get_features_temp g' = get_features_temp g ∧
    get_features_rh g' = get_features_rh g ∧
    get_features_co2 g' = get_features_co2 g ∧
    get_features_pm25 g = [[pm; w_open; sev; pur]] ∧
    get_features_pm25 g' = [[pm; w_open; 2; 1]].
Proof.
  intros (Hact & Hpur & Hocc & Hwin & Hac & Hach & Htemp & Hpm & Hrh) Hg.
  apply module_globals_inr in Hg as (Hform & Hoc & _).
  exists (mkGlobals fs' (occupancy_of fs') 2).
  exists (binary (outdoor_pm fs) ">25"), (binary (window fs) "Open"),
    (activity_pm25 g), (binary (airpurifier fs) "On").
  split.
  { unfold module_globals. by rewrite Hact. }
  unfold get_features_temp, get_features_rh, get_features_co2,
    get_features_pm25, occupancy_of; simpl.
  rewrite Hform, Hoc, Hocc, Hwin, Hac, Hach, Htemp, Hpm, Hrh, Hpur.
  repeat split.
Qed.

Lemma smoking_with_purifier_frame_witness :
  let fs' := mkForm "One resident" "Smoking" "Closed" "On"
               "Meet Thai regulation" "On" ">29" "≤25" "≤70" in
  let g := mkGlobals scenario_form 1 1 in
  smoking_with_purifier scenario_form fs' ∧
  module_globals scenario_form = inr g ∧
  ∃ g' pm w_open sev pur,
    module_globals fs' = inr g' ∧
    get_features_temp g' = get_features_temp g ∧
    get_features_rh g' = get_features_rh g ∧
    get_features_co2 g' = get_features_co2 g ∧
    get_features_pm25 g = [[pm; w_open; sev; pur]] ∧
    get_features_pm25 g' = [[pm; w_open; 2; 1]].
Proof.
  intros fs' g.
  assert (Hd : smoking_with_purifier scenario_form fs')
    by (repeat split; reflexivity).
  assert (Hg : module_globals scenario_form = inr g) by reflexivity.
  split; [exact Hd|]. split; [exact Hg|].
  exact (smoking_with_purifier_frame scenario_form fs' g Hd Hg).
Defined.

(** C6.  Whatever the selections and the module-level names derived from
    them, the temperature, humidity and CO2 matrices hold one row of
    exactly 3 elements and the PM2.5 matrix one row of exactly 4. *)
Theorem feature_dimensions (g : Globals) :
  (∃ row, get_features_temp g = [row] ∧ length row = 3%nat) ∧
  (∃ row, get_features_rh g = [row] ∧ length row = 3%nat) ∧
  (∃ row, get_features_co2 g = [row] ∧ length row = 3%nat) ∧
  (∃ row, get_features_pm25 g = [row] ∧ length row = 4%nat).
Proof. repeat split; eexists; (split; [reflexivity|reflexivity]). Qed.

(** [==] on two strings is the same whether they are compared as
    strings or as Python values. *)
Lemma binary_PyStr (value true_value : string) :
  binary (PyStr value) (PyStr true_value) = binary value true_value.
Proof. unfold binary. repeat case_decide; congruence. Qed.

(** A namespace that holds the module-level bindings holds each of
    them. *)
Lemma form_names_lookup (g : Globals) (ns : gmap string pyval)
    (name : string) (v : pyval) :
  form_names g ⊆ ns -> form_names g !! name = Some v -> ns !! name = Some v.
Proof. intros Hsub Hv. exact (lookup_weaken _ _ _ _ Hv Hsub). Qed.

(** Called in a namespace that holds the module-level bindings of [g],
    whatever else it holds, each feature function returns the vector the
    bindings of [g] give. *)
Lemma namespace_features (g : Globals) (ns : gmap string pyval) :
  form_names g ⊆ ns ->
  Py.get_features_temp ns = Some (map (map PyInt) (get_features_temp g)) ∧
  Py.get_features_rh ns = Some (map (map PyInt) (get_features_rh g)) ∧
  Py.get_features_co2 ns = Some (map (map PyInt) (get_features_co2 g)) ∧
  Py.get_features_pm25 ns = Some (map (map PyInt) (get_features_pm25 g)).
Proof.
  intros Hsub.
  pose proof (form_names_lookup g ns "outdoor_temp" _ Hsub eq_refl) as Ht.
  pose proof (form_names_lookup g ns "outdoor_rh" _ Hsub eq_refl) as Hrh.
  pose proof (form_names_lookup g ns "outdoor_pm" _ Hsub eq_refl) as Hpm.
  pose proof (form_names_lookup g ns "window" _ Hsub eq_refl) as Hw.
  pose proof (form_names_lookup g ns "ac" _ Hsub eq_refl) as Hac.
  pose proof (form_names_lookup g ns "ach" _ Hsub eq_refl) as Hach.
  pose proof (form_names_lookup g ns "airpurifier" _ Hsub eq_refl) as Hpur.
  pose proof (form_names_lookup g ns "occupancy" _ Hsub eq_refl) as Hocc.
  pose proof (form_names_lookup g ns "activity_pm25" _ Hsub eq_refl) as Hsev.
  unfold Py.get_features_temp, Py.get_features_rh, Py.get_features_co2,
    Py.get_features_pm25.
  rewrite Ht, Hrh, Hpm, Hw, Hac, Hach, Hpur, Hocc, Hsev; simpl.
  by rewrite !binary_PyStr.
Qed.

(** C7.  The encoder reads the names bound from the nine selections and
    nothing else.  Take two calls of the four feature functions, in two
    runs or at two points of one run, on forms with the same selections:
    whatever else the two module namespaces hold at the time of the call
    (imported modules, widgets, the columns, the predictions made so
    far), each function returns a vector, and the same vector in both
    calls. *)
Theorem encoding_reads_only_the_form
    (fs1 fs2 : FormState) (g1 g2 : Globals) (ns1 ns2 : gmap string pyval) :
  same_selections fs1 fs2 ->
  module_globals fs1 = inr g1 ->
  module_globals fs2 = inr g2 ->
  form_names g1 ⊆ ns1 ->
  form_names g2 ⊆ ns2 ->
  ∃ temp rh co2 pm25,
    (Py.get_features_temp ns1 = Some temp ∧
     Py.get_features_temp ns2 = Some temp) ∧
    (Py.get_features_rh ns1 = Some rh ∧
     Py.get_features_rh ns2 = Some rh) ∧
    (Py.get_features_co2 ns1 = Some co2 ∧
     Py.get_features_co2 ns2 = Some co2) ∧
    (Py.get_features_pm25 ns1 = Some pm25 ∧
     Py.get_features_pm25 ns2 = Some pm25).
Proof.
  intros Hsame G1 G2 Hsub1 Hsub2.
  assert (Heq : fs1 = fs2).
  { destruct fs1, fs2. unfold same_selections in Hsame. simpl in Hsame.
    destruct Hsame as (-> & -> & -> & -> & -> & -> & -> & -> & ->).
    reflexivity. }
  subst fs2. rewrite G1 in G2. injection G2 as <-.
  destruct (namespace_features g1 ns1 Hsub1) as (T1 & R1 & C1 & P1).
  destruct (namespace_features g1 ns2 Hsub2) as (T2 & R2 & C2 & P2).
  exists (map (map PyInt) (get_features_temp g1)),
    (map (map PyInt) (get_features_rh g1)),
    (map (map PyInt) (get_features_co2 g1)),
    (map (map PyInt) (get_features_pm25 g1)).
  repeat split; assumption.
Qed.

Lemma encoding_reads_only_the_form_witness :
  let g := mkGlobals scenario_form 1 1 in
  same_selections scenario_form scenario_form ∧
  module_globals scenario_form = inr g ∧
  form_names g ⊆ namespace_before_predictions ∧
  form_names g ⊆ namespace_after_predictions ∧
  namespace_before_predictions ≠ namespace_after_predictions ∧
  ∃ temp rh co2 pm25,
    (Py.get_features_temp namespace_before_predictions = Some temp ∧
     Py.get_features_temp namespace_after_predictions = Some temp) ∧
    (Py.get_features_rh namespace_before_predictions = Some rh ∧
     Py.get_features_rh namespace_after_predictions = Some rh) ∧
    (Py.get_features_co2 namespace_before_predictions = Some co2 ∧
     Py.get_features_co2 namespace_after_predictions = Some co2) ∧
    (Py.get_features_pm25 namespace_before_predictions = Some pm25 ∧
     Py.get_features_pm25 namespace_after_predictions = Some pm25).
Proof.
  intros g.
  assert (Hs : same_selections scenario_form scenario_form)
    by (repeat split; reflexivity).
  assert (Hg : module_globals scenario_form = inr g) by reflexivity.
  assert (H1 : form_names g ⊆ namespace_before_predictions) by by_decide.
  assert (H2 : form_names g ⊆ namespace_after_predictions) by by_decide.
  split; [exact Hs|]. split; [exact Hg|].
  split; [exact H1|]. split; [exact H2|].
  split; [by_decide|].
  exact (encoding_reads_only_the_form scenario_form scenario_form g g
           namespace_before_predictions namespace_after_predictions
           Hs Hg Hg H1 H2).
Defined.

(** C10.  [binary] returns 0 or 1 on all inputs.  Hence, once the
    module-level names are bound, every element of every vector lies in
    0..2: every indicator position holds 0 or 1, and the CO2 occupancy
    element and the PM2.5 activity element hold 1 or 2.  Both of these
    do take the value 2. *)
Theorem feature_value_ranges :
  (∀ (A : Type) (dec : EqDecision A) (value true_value : A),
     indicator_value (binary value true_value)) ∧
  (∀ fs g,
     module_globals fs = inr g ->
     (∃ t1 t2 t3,
        get_features_temp g = [[t1; t2; t3]] ∧
        indicator_value t1 ∧ indicator_value t2 ∧ indicator_value t3) ∧
     (∃ r1 r2 r3,
        get_features_rh g = [[r1; r2; r3]] ∧
        indicator_value r1 ∧ indicator_value r2 ∧ indicator_value r3) ∧
     (∃ c1 c2 c3,
        get_features_co2 g = [[c1; c2; c3]] ∧
        level_value c1 ∧ indicator_value c2 ∧ indicator_value c3) ∧
     (∃ p1 p2 p3 p4,
        get_features_pm25 g = [[p1; p2; p3; p4]] ∧
        indicator_value p1 ∧ indicator_value p2 ∧ level_value p3 ∧
        indicator_value p4) ∧
     Forall (Forall (λ x, 0 ≤ x ≤ 2))
       (get_features_temp g ++ get_features_rh g ++
        get_features_co2 g ++ get_features_pm25 g)) ∧
  (∃ fs g c2 c3,
     valid_form fs ∧ module_globals fs = inr g ∧
     get_features_co2 g = [[2; c2; c3]]) ∧
  (∃ fs g p1 p2 p4,
     valid_form fs ∧ module_globals fs = inr g ∧
     get_features_pm25 g = [[p1; p2; 2; p4]]).
Proof.
  split; [intros; apply binary_cases|].
  split.
  - intros fs g Hg. apply module_globals_inr in Hg as (Hform & Hocc & Hsev).
    apply activity_pm25_map_values in Hsev.
    assert (Hlevel : level_value (occupancy g)).
    { rewrite Hocc. unfold occupancy_of, level_value. case_decide; auto. }
    assert (Hind : ∀ v t : string, indicator_value (binary v t))
      by (intros; apply binary_cases).
    assert (Hind2 : ∀ v t : string, 0 ≤ binary v t ≤ 2)
      by (intros v t; destruct (binary_cases v t) as [-> | ->]; lia).
    repeat split; try (by repeat eexists); simpl.
    unfold get_features_pm25.
    repeat (apply Forall_cons_2 || apply Forall_nil_2); try apply Hind2.
    + destruct Hlevel as [-> | ->]; lia.
    + destruct Hsev as [-> | ->]; lia.
  - split.
    + exists (mkForm "More than one residents" "Sleeping" "Closed" "On"
                "Meet Thai regulation" "Off" ">29" "≤25" "≤70").
      eexists _, _, _. split; [by_decide|]. split; reflexivity.
    + exists (mkForm "One resident" "Cooking" "Closed" "On"
                "Meet Thai regulation" "Off" ">29" "≤25" "≤70").
      eexists _, _, _, _. split; [by_decide|]. split; reflexivity.
Qed.

Lemma feature_value_ranges_witness :
  let g := mkGlobals scenario_form 1 1 in
  module_globals scenario_form = inr g ∧
  Forall (Forall (λ x, 0 ≤ x ≤ 2))
    (get_features_temp g ++ get_features_rh g ++
     get_features_co2 g ++ get_features_pm25 g).
Proof.
  intros g.
  assert (Hg : module_globals scenario_form = inr g) by reflexivity.
  split; [exact Hg|].
  exact (proj2 (proj2 (proj2 (proj2
    (proj1 (proj2 feature_value_ranges) scenario_form g Hg))))).
Defined.

(** * Properties of the prediction runner *)

Section RunnerFacts.

Variables Label Prob : Type.
Variable truthy : Label -> bool.
Variable percent : Prob -> string.
Variable joblib_load : string -> option (Model Label Prob).

(** Whatever its outcome, a [predict] call opens its file and displays
    nothing. *)
Lemma predict_world (model_path : string) (features : list (list Z)) (w : World) :
  snd (predict Label Prob joblib_load model_path features w) =
    mkWorld (shown w) (load_calls w ++ [model_path]).
Proof.
  unfold predict, bind, load, call, lift, ret, raise, index.
  repeat (case_match; simplify_eq/=; try done).
Qed.

Lemma predict_load_error (model_path : string) (features : list (list Z)) (w : World) :
  joblib_load model_path = None ->
  predict Label Prob joblib_load model_path features w =
    (inl (LoadError model_path), mkWorld (shown w) (load_calls w ++ [model_path])).
Proof. intros Hl. unfold predict, bind, load. by rewrite Hl. Qed.

Lemma predict_no_key_error (model_path : string) (features : list (list Z))
    (w : World) (key : string) :
  fst (predict Label Prob joblib_load model_path features w) ≠ inl (KeyError key).
Proof.
  unfold predict, bind, load, call, lift, ret, raise, index.
  repeat (case_match; simplify_eq/=; try done).
Qed.

(** C8.  When the file loads, the classifier answers the feature matrix
    and the answers are long enough to subscript, [predict] returns the
    first label of [model.predict] and the second entry of the first row
    of [model.predict_proba], both as the classifier gave them; the
    label is not recomputed from the probability. *)
Theorem predict_returns_model_outputs
    (model_path : string) (features : list (list Z)) (w : World)
    (model : Model Label Prob) (labels : list Label) (label : Label)
    (probas : list (list Prob)) (row : list Prob) (exceed_prob : Prob) :
  joblib_load model_path = Some model ->
  model_predict _ _ model features = Some labels ->
  labels !! 0%nat = Some label ->
  model_predict_proba _ _ model features = Some probas ->
  probas !! 0%nat = Some row ->
  row !! 1%nat = Some exceed_prob ->
  predict Label Prob joblib_load model_path features w =
    (inr (label, exceed_prob), mkWorld (shown w) (load_calls w ++ [model_path])).
Proof.
  intros Hload Hlabels Hlabel Hprobas Hrow Hprob.
  unfold predict, bind, load, call, lift, ret, index.
  by rewrite Hload, Hlabels, Hlabel, Hprobas, Hrow, Hprob.
Qed.

(** Take one [predict] call of the goal apart: its outcome is named by
    [E], and the world after it is the one [predict_world] gives. *)
Ltac step_predict E :=
  match goal with
  | |- context [predict ?L ?P ?jl ?p ?f ?w] =>
      let W := fresh "W" in
      pose proof (predict_world p f w) as W;
      destruct (predict L P jl p f w) as [[? | ?] ?] eqn:E;
      simpl in W; subst
  end.

(** A [predict] call on a missing file did not return. *)
Ltac absurd_load Hnone E :=
  rewrite (predict_load_error _ _ _ Hnone) in E; discriminate E.

(** The block under [if submitted:] stops at the first [predict] call
    that raises: nothing but the subheader has been displayed by then,
    and the files opened are those up to the raising call. *)
Lemma run_predictions_abort (g : Globals) (w : World) (i : nat) (path : string) :
  model_paths !! i = Some path ->
  joblib_load path = None ->
  ∃ e k,
    (1 ≤ k ≤ S i)%nat ∧
    (k = S i -> e = LoadError path) ∧
    run_predictions Label Prob truthy percent joblib_load g w =
      (inl e, mkWorld (shown w ++ [results_head])
                      (load_calls w ++ take k model_paths)).
Proof.
  intros Hi Hnone.
  unfold run_predictions, bind, display; simpl.
  step_predict E1.
  { exists e, 1%nat. split; [lia|]. split; [|done].
    intros [= <-]. simpl in Hi. injection Hi as <-.
    rewrite (predict_load_error _ _ _ Hnone) in E1. congruence. }
  destruct i as [|i]; [injection Hi as <-; absurd_load Hnone E1|].
  step_predict E2.
  { exists e, 2%nat. split; [lia|]. split; [|by rewrite <- app_assoc].
    intros [= <-]. simpl in Hi. injection Hi as <-.
    rewrite (predict_load_error _ _ _ Hnone) in E2. congruence. }
  destruct i as [|i]; [injection Hi as <-; absurd_load Hnone E2|].
  step_predict E3.
  { exists e, 3%nat. split; [lia|]. split; [|by rewrite <- !app_assoc].
    intros [= <-]. simpl in Hi. injection Hi as <-.
    rewrite (predict_load_error _ _ _ Hnone) in E3. congruence. }
  destruct i as [|i]; [injection Hi as <-; absurd_load Hnone E3|].
  step_predict E4.
  { exists e, 4%nat. split; [lia|]. split; [|by rewrite <- !app_assoc].
    intros [= <-]. simpl in Hi. injection Hi as <-.
    rewrite (predict_load_error _ _ _ Hnone) in E4. congruence. }
  destruct i as [|i]; [injection Hi as <-; absurd_load Hnone E4|].
  discriminate Hi.
Qed.

(** Up to the [if submitted:] test the script displays the page head,
    binds the module-level names and opens no file. *)
Lemma app_unfold (fs : FormState) (submitted : bool) (w : World) (g : Globals) :
  module_globals fs = inr g ->
  app Label Prob truthy percent joblib_load fs submitted w =
    (if submitted
     then run_predictions Label Prob truthy percent joblib_load g
     else ret tt)
      (mkWorld (shown w ++ page_head) (load_calls w)).
Proof.
  intros Hg. unfold app, bind, display, lift; simpl. rewrite Hg.
  by rewrite <- !app_assoc.
Qed.

(** C1, as the script has it.  When [joblib.load] fails on one of the
    four model files, a submitted run ends with an exception at the
    first [predict] call that raises: besides the page head and the
    form only the results subheader is displayed, so no target's result
    is shown, and no file after the raising call is opened.  When the raising call is
    the one on the failing file, the exception is its [LoadError]. *)
Theorem load_error_aborts_run (fs : FormState) (w : World) (i : nat) (path : string) :
  valid_form fs ->
  model_paths !! i = Some path ->
  joblib_load path = None ->
  ∃ e k,
    (1 ≤ k ≤ S i)%nat ∧
    (k = S i -> e = LoadError path) ∧
    app Label Prob truthy percent joblib_load fs true w =
      (inl e, mkWorld (shown w ++ page_head ++ [results_head])
                      (load_calls w ++ take k model_paths)).
Proof.
  intros (_ & Ha & _) Hi Hnone.
  destruct (module_globals_valid fs Ha) as (v & _ & Hg).
  rewrite (app_unfold fs true w _ Hg).
  destruct (run_predictions_abort (mkGlobals fs (occupancy_of fs) v)
              (mkWorld (shown w ++ page_head) (load_calls w)) i path Hi Hnone)
    as (e & k & Hk & He & Hrun).
  exists e, k. split; [exact Hk|]. split; [exact He|].
  rewrite Hrun. simpl. by rewrite <- app_assoc.
Qed.

(** No [predict] call raises [KeyError], so neither does the block
    under [if submitted:]. *)
Lemma run_predictions_no_key_error (g : Globals) (w : World) (key : string) :
  fst (run_predictions Label Prob truthy percent joblib_load g w)
    ≠ inl (KeyError key).
Proof.
  unfold run_predictions, bind, display, show_result; simpl.
  do 4 (step_predict E;
        [ match type of E with
          | predict _ _ _ ?p ?f ?w0 = _ =>
              pose proof (predict_no_key_error p f w0 key) as Hk;
              rewrite E in Hk; simpl in *; congruence
          end
        | clear E ]).
  discriminate.
Qed.

(** C9.  On a form the select boxes can produce, encoding cannot fail:
    the subscript [activity_pm25_map[activity]] finds its key and the
    module-level names are bound, without touching the page or the disk.
    A run that was not submitted ends normally, having displayed the
    page head and opened no file, and a submitted run never ends with a
    [KeyError]. *)
Theorem encoding_cannot_fail (fs : FormState) (w : World) :
  valid_form fs ->
  ∃ g,
    module_globals fs = inr g ∧
    form g = fs ∧
    subscript activity_pm25_map (activity fs) = inr (activity_pm25 g) ∧
    lift (module_globals fs) w = (inr g, w) ∧
    app Label Prob truthy percent joblib_load fs false w =
      (inr tt, mkWorld (shown w ++ page_head) (load_calls w)) ∧
    ∀ key,
      fst (app Label Prob truthy percent joblib_load fs true w)
        ≠ inl (KeyError key).
Proof.
  intros (_ & Ha & _).
  destruct (module_globals_valid fs Ha) as (v & Hv & Hg).
  exists (mkGlobals fs (occupancy_of fs) v).
  split; [exact Hg|]. split; [reflexivity|].
  split; [unfold subscript; by rewrite Hv|].
  split; [unfold lift; by rewrite Hg|].
  split; [by rewrite (app_unfold fs false w _ Hg)|].
  intros key. rewrite (app_unfold fs true w _ Hg).
  apply run_predictions_no_key_error.
Qed.

End RunnerFacts.

Lemma encoding_cannot_fail_witness :
  valid_form scenario_form ∧
  app bool Q sample_truthy sample_percent disk_without_temp
      scenario_form false empty_world =
    (inr tt, mkWorld page_head []).
Proof.
  assert (Hv : valid_form scenario_form) by by_decide.
  split; [exact Hv|].
  destruct (encoding_cannot_fail bool Q sample_truthy sample_percent
              disk_without_temp scenario_form empty_world Hv)
    as (g & _ & _ & _ & _ & Happ & _).
  exact Happ.
Defined.

(** C1, as stated, fails.  With [model_Temp.pkl] missing and the other
    three files loading, a submitted run on the scenario form ends with
    the [LoadError] of the temperature call: the only file opened is
    [model_Temp.pkl], so none of the other three predictions is
    computed, and the page shows its head and the results subheader, so
    no result of any target is displayed. *)
Lemma load_error_not_isolated :
  let run := app bool Q sample_truthy sample_percent disk_without_temp
               scenario_form true empty_world in
  valid_form scenario_form ∧
  disk_without_temp "model_Temp.pkl" = None ∧
  is_Some (disk_without_temp "model_RH.pkl") ∧
  is_Some (disk_without_temp "model_PM25.pkl") ∧
  is_Some (disk_without_temp "model_CO2.pkl") ∧
  fst run = inl (LoadError "model_Temp.pkl") ∧
  load_calls (snd run) = ["model_Temp.pkl"] ∧
  shown (snd run) = page_head ++ [results_head] ∧
  ¬ (∀ path, path ∈ ["model_RH.pkl"; "model_PM25.pkl"; "model_CO2.pkl"] ->
             path ∈ load_calls (snd run)) ∧
  ¬ (∃ name label prob,
       result_line bool Q sample_truthy sample_percent name label prob
         ∈ shown (snd run)).
Proof.
  intros run.
  assert (Hrun : run = (inl (LoadError "model_Temp.pkl"),
                        mkWorld (page_head ++ [results_head]) ["model_Temp.pkl"]))
    by (vm_compute; reflexivity).
  split; [by_decide|].
  split; [reflexivity|].
  do 3 (split; [by eexists|]).
  rewrite Hrun; simpl.
  do 3 (split; [reflexivity|]).
  split.
  - intros Hall. specialize (Hall "model_RH.pkl" ltac:(by_decide)).
    apply list_elem_of_singleton in Hall. discriminate Hall.
  - intros (name & label & prob & Hin).
    unfold page_head, results_head, result_line in Hin.
    repeat (apply elem_of_cons in Hin as [Hin | Hin]; [discriminate Hin|]).
    by apply elem_of_nil in Hin.
Qed.

Lemma load_error_aborts_run_witness :
  valid_form scenario_form ∧
  model_paths !! 0%nat = Some "model_Temp.pkl" ∧
  disk_without_temp "model_Temp.pkl" = None ∧
  ∃ e k,
    (1 ≤ k ≤ 1)%nat ∧
    (k = 1%nat -> e = LoadError "model_Temp.pkl") ∧
    app bool Q sample_truthy sample_percent disk_without_temp
        scenario_form true empty_world =
      (inl e, mkWorld ([] ++ page_head ++ [results_head])
                      ([] ++ take k model_paths)).
Proof.
  assert (Hv : valid_form scenario_form) by by_decide.
  split; [exact Hv|]. split; [reflexivity|]. split; [reflexivity|].
  exact (load_error_aborts_run bool Q sample_truthy sample_percent
           disk_without_temp scenario_form empty_world 0 "model_Temp.pkl"
           Hv eq_refl eq_refl).
Defined.

Lemma predict_returns_model_outputs_witness :
  let model := constant_model false (1 # 10) (9 # 10) in
  disk_of_contrarians "model_PM25.pkl" = Some model ∧
  predict bool Q disk_of_contrarians "model_PM25.pkl" [[0; 0; 1; 0]] empty_world =
    (inr (false, 9 # 10), mkWorld [] ["model_PM25.pkl"]).
Proof.
  intros model. split; [reflexivity|].
  exact (predict_returns_model_outputs bool Q disk_of_contrarians
           "model_PM25.pkl" [[0; 0; 1; 0]] empty_world model
           [false] false [[1 # 10; 9 # 10]] [1 # 10; 9 # 10] (9 # 10)
           eq_refl eq_refl eq_refl eq_refl eq_refl eq_refl).
Defined.

(** * Further properties of the feature encoder *)

Lemma binary_one {A} `{EqDecision A} (value true_value : A) :
  binary value true_value = 1 ↔ value = true_value.
Proof. unfold binary. case_decide; split; intros; done. Qed.

Lemma binary_zero {A} `{EqDecision A} (value true_value : A) :
  binary value true_value = 0 ↔ value ≠ true_value.
Proof. unfold binary. case_decide; split; intros; done. Qed.

(** On a box of two choices, either choice's indicator tells the
    selections apart. *)
Lemma binary_two_options (a b v1 v2 : string) :
  v1 ∈ [a; b] -> v2 ∈ [a; b] ->
  (binary v1 a = binary v2 a -> v1 = v2) ∧
  (binary v1 b = binary v2 b -> v1 = v2).
Proof.
  intros H1 H2. options_cases H1; options_cases H2;
    unfold binary; repeat case_decide; split; intros; congruence.
Qed.

(** A key outside the select box's choices is not in the dictionary. *)
Lemma activity_pm25_map_missing (a : string) :
  a ∉ activity_options -> activity_pm25_map !! a = None.
Proof.
  intros Hnot. apply not_elem_of_list_to_map_1. simpl.
  intros Hin. apply Hnot. options_cases Hin; by_decide.
Qed.

(** Settle an equivalence between two closed, decidable sides. *)
Ltac settle_iff :=
  split; intros ?;
  first [ reflexivity | discriminate | by_decide
        | match goal with
          | H : ?x ∈ ?l |- _ => assert (x ∉ l) by by_decide; done
          end ].

(** X1.  On a form the select boxes can produce, the temperature vector
    is [low outdoor temperature, window open, A/C off]: each element is
    1 exactly on the named selection and 0 exactly on the other choice
    of its box. *)
Theorem temp_vector (fs : FormState) :
  valid_form fs ->
  ∃ g t_low w_open ac_off,
    module_globals fs = inr g ∧
    get_features_temp g = [[t_low; w_open; ac_off]] ∧
    (t_low = 1 ↔ outdoor_temp fs = "≤29") ∧
    (t_low = 0 ↔ outdoor_temp fs = ">29") ∧
    (w_open = 1 ↔ window fs = "Open") ∧
    (w_open = 0 ↔ window fs = "Closed") ∧
    (ac_off = 1 ↔ ac fs = "Off") ∧
    (ac_off = 0 ↔ ac fs = "On").
Proof.
  intros (_ & Ha & Hw & Hac & _ & _ & Ht & _ & _).
  destruct (module_globals_valid fs Ha) as (v & _ & Hg).
  exists (mkGlobals fs (occupancy_of fs) v),
    (binary (outdoor_temp fs) "≤29"), (binary (window fs) "Open"),
    (binary (ac fs) "Off").
  split; [exact Hg|]. split; [reflexivity|]. clear Hg Ha.
  destruct fs as [occ act win a_c a_ch pur o_t o_pm o_rh]; simpl in *.
  options_cases Hw; options_cases Hac; options_cases Ht;
    repeat split; intros ?; first [reflexivity | discriminate].
Qed.

Lemma temp_vector_witness :
  valid_form scenario_form ∧
  ∃ g t_low w_open ac_off,
    module_globals scenario_form = inr g ∧
    get_features_temp g = [[t_low; w_open; ac_off]] ∧
    (t_low = 1 ↔ outdoor_temp scenario_form = "≤29") ∧
    (t_low = 0 ↔ outdoor_temp scenario_form = ">29") ∧
    (w_open = 1 ↔ window scenario_form = "Open") ∧
    (w_open = 0 ↔ window scenario_form = "Closed") ∧
    (ac_off = 1 ↔ ac scenario_form = "Off") ∧
    (ac_off = 0 ↔ ac scenario_form = "On").
Proof.
  assert (Hv : valid_form scenario_form) by by_decide.
  split; [exact Hv | exact (temp_vector scenario_form Hv)].
Defined.

(** X2.  On a form the select boxes can produce, the relative-humidity
    vector is [high outdoor humidity, window open, A/C on]: each element
    is 1 exactly on the named selection and 0 exactly on the other
    choice of its box. *)
Theorem rh_vector (fs : FormState) :
  valid_form fs ->
  ∃ g rh_high w_open ac_on,
    module_globals fs = inr g ∧
    get_features_rh g = [[rh_high; w_open; ac_on]] ∧
    (rh_high = 1 ↔ outdoor_rh fs = ">70") ∧
    (rh_high = 0 ↔ outdoor_rh fs = "≤70") ∧
    (w_open = 1 ↔ window fs = "Open") ∧
    (w_open = 0 ↔ window fs = "Closed") ∧
    (ac_on = 1 ↔ ac fs = "On") ∧
    (ac_on = 0 ↔ ac fs = "Off").
Proof.
  intros (_ & Ha & Hw & Hac & _ & _ & _ & _ & Hrh).
  destruct (module_globals_valid fs Ha) as (v & _ & Hg).
  exists (mkGlobals fs (occupancy_of fs) v),
    (binary (outdoor_rh fs) ">70"), (binary (window fs) "Open"),
    (binary (ac fs) "On").
  split; [exact Hg|]. split; [reflexivity|]. clear Hg Ha.
  destruct fs as [occ act win a_c a_ch pur o_t o_pm o_rh]; simpl in *.
  options_cases Hw; options_cases Hac; options_cases Hrh;
    repeat split; intros ?; first [reflexivity | discriminate].
Qed.

Lemma rh_vector_witness :
  valid_form scenario_form ∧
  ∃ g rh_high w_open ac_on,
    module_globals scenario_form = inr g ∧
    get_features_rh g = [[rh_high; w_open; ac_on]] ∧
    (rh_high = 1 ↔ outdoor_rh scenario_form = ">70") ∧
    (rh_high = 0 ↔ outdoor_rh scenario_form = "≤70") ∧
    (w_open = 1 ↔ window scenario_form = "Open") ∧
    (w_open = 0 ↔ window scenario_form = "Closed") ∧
    (ac_on = 1 ↔ ac scenario_form = "On") ∧
    (ac_on = 0 ↔ ac scenario_form = "Off").
Proof.
  assert (Hv : valid_form scenario_form) by by_decide.
  split; [exact Hv | exact (rh_vector scenario_form Hv)].
Defined.

(** X3.  On a form the select boxes can produce, the PM2.5 vector is
    [high outdoor PM2.5, window open, activity level, purifier on]: the
    indicators are 1 exactly on the named selection and 0 exactly on the
    other choice, and the level is 2 exactly for cooking and smoking and
    1 exactly for the seven other activities. *)
Theorem pm25_vector (fs : FormState) :
  valid_form fs ->
  ∃ g pm_high w_open level pur_on,
    module_globals fs = inr g ∧
    get_features_pm25 g = [[pm_high; w_open; level; pur_on]] ∧
    (pm_high = 1 ↔ outdoor_pm fs = ">25") ∧
    (pm_high = 0 ↔ outdoor_pm fs = "≤25") ∧
    (w_open = 1 ↔ window fs = "Open") ∧
    (w_open = 0 ↔ window fs = "Closed") ∧
    (level = 2 ↔ activity fs ∈ ["Cooking"; "Smoking"]) ∧
    (level = 1 ↔ activity fs ∈ ["Sleeping"; "Sitting"; "Watching TV";
                                "Working"; "Having Dinner"; "Cleaning";
                                "Dressing"]) ∧
    (pur_on = 1 ↔ airpurifier fs = "On") ∧
    (pur_on = 0 ↔ airpurifier fs = "Off").
Proof.
  intros (_ & Ha & Hw & _ & _ & Hpur & _ & Hpm & _).
  destruct (module_globals_valid fs Ha) as (v & Hv & Hg).
  exists (mkGlobals fs (occupancy_of fs) v),
    (binary (outdoor_pm fs) ">25"), (binary (window fs) "Open"), v,
    (binary (airpurifier fs) "On").
  split; [exact Hg|]. split; [reflexivity|]. clear Hg.
  destruct fs as [occ act win a_c a_ch pur o_t o_pm o_rh]; simpl in *.
  assert (Hlevel : (v = 2 ↔ act ∈ ["Cooking"; "Smoking"]) ∧
                   (v = 1 ↔ act ∈ ["Sleeping"; "Sitting"; "Watching TV";
                                   "Working"; "Having Dinner"; "Cleaning";
                                   "Dressing"])).
  { options_cases Ha; vm_compute in Hv; injection Hv as <-;
      split; settle_iff. }
  destruct Hlevel as [Hl2 Hl1]. clear Ha Hv.
  options_cases Hw; options_cases Hpur; options_cases Hpm;
    repeat split; try (apply Hl2); try (apply Hl1);
    intros ?; first [reflexivity | discriminate].
Qed.

Lemma pm25_vector_witness :
  valid_form scenario_form ∧
  ∃ g pm_high w_open level pur_on,
    module_globals scenario_form = inr g ∧
    get_features_pm25 g = [[pm_high; w_open; level; pur_on]] ∧
    (pm_high = 1 ↔ outdoor_pm scenario_form = ">25") ∧
    (pm_high = 0 ↔ outdoor_pm scenario_form = "≤25") ∧
    (w_open = 1 ↔ window scenario_form = "Open") ∧
    (w_open = 0 ↔ window scenario_form = "Closed") ∧
    (level = 2 ↔ activity scenario_form ∈ ["Cooking"; "Smoking"]) ∧
    (level = 1 ↔ activity scenario_form ∈
                   ["Sleeping"; "Sitting"; "Watching TV"; "Working";
                    "Having Dinner"; "Cleaning"; "Dressing"]) ∧
    (pur_on = 1 ↔ airpurifier scenario_form = "On") ∧
    (pur_on = 0 ↔ airpurifier scenario_form = "Off").
Proof.
  assert (Hv : valid_form scenario_form) by by_decide.
  split; [exact Hv | exact (pm25_vector scenario_form Hv)].
Defined.

(** X4.  The dictionary's keys are the choices of the activity box, no
    more and no fewer, although the two list them in different orders;
    for any string whatever, the dictionary holds 2 exactly for
    "Cooking" and "Smoking" and 1 exactly for the seven other
    activities. *)
Theorem activity_pm25_map_table (a : string) :
  (is_Some (activity_pm25_map !! a) ↔ a ∈ activity_options) ∧
  (activity_pm25_map !! a = None ↔ a ∉ activity_options) ∧
  (activity_pm25_map !! a = Some 2 ↔ a ∈ ["Cooking"; "Smoking"]) ∧
  (activity_pm25_map !! a = Some 1 ↔
     a ∈ ["Sleeping"; "Sitting"; "Watching TV"; "Working"; "Having Dinner";
          "Cleaning"; "Dressing"]).
Proof.
  destruct (decide (a ∈ activity_options)) as [Hin | Hnot].
  - options_cases Hin; repeat split; intros ?;
      first [ by eexists | by_decide | reflexivity
            | match goal with
              | H : _ !! _ = _ |- _ => vm_compute in H; discriminate H
              | H : ?x ∈ ?l |- _ => assert (x ∉ l) by by_decide; done
              | H : ?x ∉ ?l |- _ => assert (x ∈ l) by by_decide; done
              end ].
  - pose proof (activity_pm25_map_missing a Hnot) as Hnone.
    rewrite Hnone. repeat split; intros H; try done;
      first [ by destruct H
            | exfalso; apply Hnot; options_cases H; by_decide ].
Qed.

Lemma activity_pm25_map_table_witness :
  activity_pm25_map !! "Jogging" = None ∧
  activity_pm25_map !! "Smoking" = Some 2.
Proof.
  split.
  - apply (proj2 (proj1 (proj2 (activity_pm25_map_table "Jogging")))).
    by_decide.
  - apply (proj2 (proj1 (proj2 (proj2 (activity_pm25_map_table "Smoking"))))).
    by_decide.
Defined.

(** X5.  All four vectors carry the same window indicator as their
    second element: it is 1 exactly when the window selection is "Open",
    and 0 otherwise. *)
Theorem window_indicator_shared (g : Globals) :
  ∃ w_open t1 t3 r1 r3 c1 c3 p1 p3 p4,
    get_features_temp g = [[t1; w_open; t3]] ∧
    get_features_rh g = [[r1; w_open; r3]] ∧
    get_features_co2 g = [[c1; w_open; c3]] ∧
    get_features_pm25 g = [[p1; w_open; p3; p4]] ∧
    (w_open = 1 ↔ window (form g) = "Open") ∧
    (w_open = 0 ↔ window (form g) ≠ "Open").
Proof.
  exists (binary (window (form g)) "Open"). do 9 eexists.
  do 4 (split; [reflexivity|]).
  split; [apply binary_one | apply binary_zero].
Qed.

Lemma window_indicator_shared_witness :
  ∃ w_open t1 t3 r1 r3 c1 c3 p1 p3 p4,
    get_features_temp (mkGlobals scenario_form 1 1) = [[t1; w_open; t3]] ∧
    get_features_rh (mkGlobals scenario_form 1 1) = [[r1; w_open; r3]] ∧
    get_features_co2 (mkGlobals scenario_form 1 1) = [[c1; w_open; c3]] ∧
    get_features_pm25 (mkGlobals scenario_form 1 1) = [[p1; w_open; p3; p4]] ∧
    (w_open = 1 ↔ window scenario_form = "Open") ∧
    (w_open = 0 ↔ window scenario_form ≠ "Open").
Proof. exact (window_indicator_shared (mkGlobals scenario_form 1 1)). Defined.

(** X6.  The temperature vector ends with the indicator of A/C off and
    the humidity vector with the indicator of A/C on.  The two are never
    both 1, and on a selection of the A/C box exactly one of them
    is 1. *)
Theorem ac_indicators_complementary (g : Globals) :
  ∃ t1 t2 ac_off r1 r2 ac_on,
    get_features_temp g = [[t1; t2; ac_off]] ∧
    get_features_rh g = [[r1; r2; ac_on]] ∧
    ac_off + ac_on ≤ 1 ∧
    (ac (form g) ∈ ac_options -> ac_off + ac_on = 1).
Proof.
  do 6 eexists. do 2 (split; [reflexivity|]).
  unfold binary. split.
  - repeat case_decide; try lia. congruence.
  - intros Hac. options_cases Hac; rewrite Hac; reflexivity.
Qed.

Lemma ac_indicators_complementary_witness :
  ac (form (mkGlobals scenario_form 1 1)) ∈ ac_options ∧
  ∃ t1 t2 ac_off r1 r2 ac_on,
    get_features_temp (mkGlobals scenario_form 1 1) = [[t1; t2; ac_off]] ∧
    get_features_rh (mkGlobals scenario_form 1 1) = [[r1; r2; ac_on]] ∧
    ac_off + ac_on ≤ 1 ∧
    (ac (form (mkGlobals scenario_form 1 1)) ∈ ac_options ->
     ac_off + ac_on = 1).
Proof.
  split; [by_decide|].
  exact (ac_indicators_complementary (mkGlobals scenario_form 1 1)).
Defined.

(** X7.  The four vectors of a form the select boxes can produce give
    back every selection but the activity, and of the activity its
    level: two such forms with the same four vectors agree on the eight
    other selections and their activities have the same entry in the
    dictionary. *)
Theorem vectors_determine_selections (fs1 fs2 : FormState) (g1 g2 : Globals) :
  valid_form fs1 -> valid_form fs2 ->
  module_globals fs1 = inr g1 -> module_globals fs2 = inr g2 ->
  get_features_temp g1 = get_features_temp g2 ->
  get_features_rh g1 = get_features_rh g2 ->
  get_features_co2 g1 = get_features_co2 g2 ->
  get_features_pm25 g1 = get_features_pm25 g2 ->
  occupancy_label fs1 = occupancy_label fs2 ∧
  window fs1 = window fs2 ∧
  ac fs1 = ac fs2 ∧
  ach fs1 = ach fs2 ∧
  airpurifier fs1 = airpurifier fs2 ∧
  outdoor_temp fs1 = outdoor_temp fs2 ∧
  outdoor_pm fs1 = outdoor_pm fs2 ∧
  outdoor_rh fs1 = outdoor_rh fs2 ∧
  subscript activity_pm25_map (activity fs1) =
    subscript activity_pm25_map (activity fs2).
Proof.
  intros (Ho1 & _ & Hw1 & Hac1 & Hach1 & Hp1 & Ht1 & Hpm1 & Hrh1)
         (Ho2 & _ & Hw2 & Hac2 & Hach2 & Hp2 & Ht2 & Hpm2 & Hrh2) G1 G2.
  apply module_globals_inr in G1 as (F1 & O1 & S1).
  apply module_globals_inr in G2 as (F2 & O2 & S2).
  unfold get_features_temp, get_features_rh, get_features_co2,
    get_features_pm25.
  rewrite F1, F2, O1, O2.
  intros [= Et _ Eoff] [= Erh _ _] [= Eocc _ Each] [= Epm Ew Esev Epur].
  split.
  { unfold occupancy_of in Eocc.
    options_cases Ho1; options_cases Ho2; rewrite Ho1, Ho2 in *;
      first [reflexivity | discriminate Eocc]. }
  split; [exact (proj2 (binary_two_options _ _ _ _ Hw1 Hw2) Ew)|].
  split; [exact (proj1 (binary_two_options _ _ _ _ Hac1 Hac2) Eoff)|].
  split; [exact (proj1 (binary_two_options _ _ _ _ Hach1 Hach2) Each)|].
  split; [exact (proj2 (binary_two_options _ _ _ _ Hp1 Hp2) Epur)|].
  split; [exact (proj1 (binary_two_options _ _ _ _ Ht1 Ht2) Et)|].
  split; [exact (proj2 (binary_two_options _ _ _ _ Hpm1 Hpm2) Epm)|].
  split; [exact (proj2 (binary_two_options _ _ _ _ Hrh1 Hrh2) Erh)|].
  unfold subscript. rewrite S1, S2. by rewrite Esev.
Qed.

Lemma vectors_determine_selections_witness :
  let fs2 := mkForm "One resident" "Sitting" "Closed" "On"
               "Meet Thai regulation" "Off" ">29" "≤25" "≤70" in
  activity scenario_form ≠ activity fs2 ∧
  window scenario_form = window fs2 ∧
  subscript activity_pm25_map (activity scenario_form) =
    subscript activity_pm25_map (activity fs2).
Proof.
  intros fs2.
  assert (V1 : valid_form scenario_form) by by_decide.
  assert (V2 : valid_form fs2) by by_decide.
  destruct (vectors_determine_selections scenario_form fs2
              (mkGlobals scenario_form 1 1) (mkGlobals fs2 1 1) V1 V2
              eq_refl eq_refl eq_refl eq_refl eq_refl eq_refl)
    as (_ & Hw & _ & _ & _ & _ & _ & _ & Hs).
  split; [discriminate|]. split; [exact Hw | exact Hs].
Defined.

(** X8.  Each vector reads only the selections of its own target: the
    temperature vector the outdoor temperature, window and A/C; the
    humidity vector the outdoor humidity, window and A/C; the CO2 vector
    the occupancy, window and air change rate; the PM2.5 vector the
    outdoor PM2.5, window, activity and air purifier.  Two forms that
    agree on a vector's selections get the same vector, whatever their
    other selections. *)
Theorem vector_footprints (fs1 fs2 : FormState) (g1 g2 : Globals) :
  module_globals fs1 = inr g1 -> module_globals fs2 = inr g2 ->
  (outdoor_temp fs1 = outdoor_temp fs2 -> window fs1 = window fs2 ->
   ac fs1 = ac fs2 -> get_features_temp g1 = get_features_temp g2) ∧
  (outdoor_rh fs1 = outdoor_rh fs2 -> window fs1 = window fs2 ->
   ac fs1 = ac fs2 -> get_features_rh g1 = get_features_rh g2) ∧
  (occupancy_label fs1 = occupancy_label fs2 -> window fs1 = window fs2 ->
   ach fs1 = ach fs2 -> get_features_co2 g1 = get_features_co2 g2) ∧
  (outdoor_pm fs1 = outdoor_pm fs2 -> window fs1 = window fs2 ->
   activity fs1 = activity fs2 -> airpurifier fs1 = airpurifier fs2 ->
   get_features_pm25 g1 = get_features_pm25 g2).
Proof.
  intros G1 G2.
  apply module_globals_inr in G1 as (F1 & O1 & S1).
  apply module_globals_inr in G2 as (F2 & O2 & S2).
  unfold get_features_temp, get_features_rh, get_features_co2,
    get_features_pm25, occupancy_of in *.
  rewrite F1, F2, O1, O2.
  repeat split.
  - by intros -> -> ->.
  - by intros -> -> ->.
  - by intros -> -> ->.
  - intros -> -> Ha ->. rewrite Ha in S1. rewrite S1 in S2.
    by injection S2 as ->.
Qed.

Lemma vector_footprints_witness :
  let fs2 := mkForm "More than one residents" "Cooking" "Closed" "On"
               "Not meet Thai regulation" "On" ">29" ">25" ">70" in
  get_features_temp (mkGlobals scenario_form 1 1) =
    get_features_temp (mkGlobals fs2 2 2).
Proof.
  intros fs2.
  exact (proj1 (vector_footprints scenario_form fs2
                  (mkGlobals scenario_form 1 1) (mkGlobals fs2 2 2)
                  eq_refl eq_refl)
           eq_refl eq_refl eq_refl).
Defined.

(** * Further properties of the prediction runner *)

Section RunnerOutcomes.

Variables Label Prob : Type.
Variable truthy : Label -> bool.
Variable percent : Prob -> string.
Variable joblib_load : string -> option (Model Label Prob).

(** Name the outcome of the next [predict] call of the goal [E] and
    replace the world after it by the one [predict_world] gives. *)
Ltac next_predict E :=
  match goal with
  | |- context [predict ?L ?P ?jl ?p ?f ?w] =>
      let W := fresh "W" in
      pose proof (predict_world L P jl p f w) as W;
      destruct (predict L P jl p f w) as [[? | ?] ?] eqn:E;
      simpl in W; subst
  end.

Lemma predict_answers (model_path : string) (features : list (list Z))
    (label : Label) (exceed_prob : Prob) (w : World) :
  answers joblib_load model_path features label exceed_prob ->
  predict Label Prob joblib_load model_path features w =
    (inr (label, exceed_prob),
     mkWorld (shown w) (load_calls w ++ [model_path])).
Proof.
  intros (model & labels & probas & row & Hl & Hp & Hl0 & Hpp & Hr0 & Hr1).
  unfold predict, bind, load, call, lift, ret, index.
  by rewrite Hl, Hp, Hl0, Hpp, Hr0, Hr1.
Qed.

(** The block under [if submitted:] either stops at a raising [predict]
    call, having displayed the subheader alone, or runs all four calls
    and displays the subheader and four result lines. *)
Lemma run_predictions_cases (g : Globals) (w : World) :
  (∃ e k,
     (1 ≤ k ≤ 4)%nat ∧
     run_predictions Label Prob truthy percent joblib_load g w =
       (inl e, mkWorld (shown w ++ [results_head])
                       (load_calls w ++ take k model_paths))) ∨
  (∃ temp rh pm25 co2 : Label * Prob,
     run_predictions Label Prob truthy percent joblib_load g w =
       (inr tt,
        mkWorld
          (shown w ++
           [results_head;
            result_line Label Prob truthy percent "🌡️ Temperature" (fst temp) (snd temp);
            result_line Label Prob truthy percent "💧 Relative Humidity" (fst rh) (snd rh);
            result_line Label Prob truthy percent "🫁 PM2.5" (fst pm25) (snd pm25);
            result_line Label Prob truthy percent "😮‍💨 CO2" (fst co2) (snd co2)])
          (load_calls w ++ model_paths))).
Proof.
  unfold run_predictions, show_result, bind, display; simpl.
  next_predict E1.
  { left. exists e, 1%nat. split; [lia | done]. }
  next_predict E2.
  { left. exists e, 2%nat. split; [lia | by rewrite <- app_assoc]. }
  next_predict E3.
  { left. exists e, 3%nat. split; [lia | by rewrite <- !app_assoc]. }
  next_predict E4.
  { left. exists e, 4%nat. split; [lia | by rewrite <- !app_assoc]. }
  right. exists p, p0, p1, p2. simpl. rewrite <- !app_assoc. reflexivity.
Qed.

(** X9.  An activity that is none of the select box's choices stops the
    script with [KeyError] on that activity, whether or not the form was
    submitted: the page head is displayed, no model file is opened and
    no prediction is made. *)
Theorem unknown_activity_key_error (fs : FormState) (submitted : bool) (w : World) :
  activity fs ∉ activity_options ->
  app Label Prob truthy percent joblib_load fs submitted w =
    (inl (KeyError (activity fs)),
     mkWorld (shown w ++ page_head) (load_calls w)).
Proof.
  intros Hnot. apply activity_pm25_map_missing in Hnot.
  unfold app, bind, display, lift, module_globals, subscript; simpl.
  rewrite Hnot. by rewrite <- !app_assoc.
Qed.

(** X10.  When each of the four files loads and its classifier answers
    its vector, a submitted run ends normally: the files are opened in
    the order temperature, humidity, PM2.5, CO2, and after the subheader
    the page shows one line per target in that same order, each with the
    label and probability of its own classifier. *)
Theorem all_answers_show_four_results (fs : FormState) (g : Globals) (w : World)
    (l_temp l_rh l_pm25 l_co2 : Label) (p_temp p_rh p_pm25 p_co2 : Prob) :
  module_globals fs = inr g ->
  answers joblib_load "model_Temp.pkl" (get_features_temp g) l_temp p_temp ->
  answers joblib_load "model_RH.pkl" (get_features_rh g) l_rh p_rh ->
  answers joblib_load "model_PM25.pkl" (get_features_pm25 g) l_pm25 p_pm25 ->
  answers joblib_load "model_CO2.pkl" (get_features_co2 g) l_co2 p_co2 ->
  app Label Prob truthy percent joblib_load fs true w =
    (inr tt,
     mkWorld
       (shown w ++ page_head ++
        [results_head;
         result_line Label Prob truthy percent "🌡️ Temperature" l_temp p_temp;
         result_line Label Prob truthy percent "💧 Relative Humidity" l_rh p_rh;
         result_line Label Prob truthy percent "🫁 PM2.5" l_pm25 p_pm25;
         result_line Label Prob truthy percent "😮‍💨 CO2" l_co2 p_co2])
       (load_calls w ++ model_paths)).
Proof.
  intros Hg Ht Hr Hp Hc.
  rewrite (app_unfold _ _ _ _ _ fs true w g Hg).
  unfold run_predictions, show_result, bind, display; simpl.
  rewrite (predict_answers _ _ _ _ _ Ht); simpl.
  rewrite (predict_answers _ _ _ _ _ Hr); simpl.
  rewrite (predict_answers _ _ _ _ _ Hp); simpl.
  rewrite (predict_answers _ _ _ _ _ Hc); simpl.
  by rewrite <- !app_assoc.
Qed.

(** X11.  Every run, on any form, submitted or not, with any files on
    disk, ends in one of three ways.  It displays the page head alone
    and opens no file: the form was not submitted, or the activity
    raised [KeyError].  Or it was submitted, a [predict] call raised,
    and it displays the results subheader and no result line, having
    opened the files up to the raising call.  Or it ends normally,
    having opened all four files in order and displayed all four result
    lines.  So the page never shows some results without the others. *)
Theorem results_all_or_none (fs : FormState) (submitted : bool) (w : World) :
  let run := app Label Prob truthy percent joblib_load fs submitted w in
  (snd run = mkWorld (shown w ++ page_head) (load_calls w) ∧
   (fst run = inl (KeyError (activity fs)) ∨
    fst run = inr tt ∧ submitted = false)) ∨
  (submitted = true ∧
   ∃ e k,
     (1 ≤ k ≤ 4)%nat ∧
     run = (inl e, mkWorld (shown w ++ page_head ++ [results_head])
                           (load_calls w ++ take k model_paths))) ∨
  (submitted = true ∧
   ∃ temp rh pm25 co2 : Label * Prob,
     run =
       (inr tt,
        mkWorld
          (shown w ++ page_head ++
           [results_head;
            result_line Label Prob truthy percent "🌡️ Temperature" (fst temp) (snd temp);
            result_line Label Prob truthy percent "💧 Relative Humidity" (fst rh) (snd rh);
            result_line Label Prob truthy percent "🫁 PM2.5" (fst pm25) (snd pm25);
            result_line Label Prob truthy percent "😮‍💨 CO2" (fst co2) (snd co2)])
          (load_calls w ++ model_paths))).
Proof.
  intros run. subst run.
  destruct (module_globals fs) as [e | g] eqn:Hg.
  - left.
    assert (He : e = KeyError (activity fs)).
    { unfold module_globals, subscript in Hg.
      destruct (activity_pm25_map !! activity fs); congruence. }
    subst e. unfold app, bind, display, lift; simpl. rewrite Hg; simpl.
    split; [by rewrite <- !app_assoc | by left].
  - rewrite (app_unfold _ _ _ _ _ fs submitted w g Hg).
    destruct submitted.
    + right.
      destruct (run_predictions_cases g
                  (mkWorld (shown w ++ page_head) (load_calls w)))
        as [(e & k & Hk & Hrun) | (t & r & p & c & Hrun)];
        rewrite Hrun; simpl; rewrite <- !app_assoc.
      * left. split; [done|]. by exists e, k.
      * right. split; [done|]. by exists t, r, p, c.
    + left. split; [done | by right].
Qed.

(** X12.  The line displayed for a result tells the truth value of the
    label it was made from, whatever the target's name and the
    percentage: two lines that are the same come from labels of the same
    truth value. *)
Theorem result_line_reveals_label
    (name name' : string) (label label' : Label) (prob prob' : Prob) :
  result_line Label Prob truthy percent name label prob =
    result_line Label Prob truthy percent name' label' prob' ->
  truthy label = truthy label'.
Proof.
  unfold result_line.
  destruct (truthy label), (truthy label'); try reflexivity;
    intros [= H]; simpl in H; discriminate H.
Qed.

(** X13.  [predict] raises [IndexError], after opening its file, when
    the classifier returns no label at all, and also when it returns
    probability rows whose first row has fewer than two entries, as a
    classifier fitted on a single class does. *)
Theorem predict_index_error (model_path : string) (features : list (list Z))
    (w : World) (model : Model Label Prob) (labels : list Label) :
  joblib_load model_path = Some model ->
  model_predict _ _ model features = Some labels ->
  (labels = [] ∨
   ∃ probas row,
     model_predict_proba _ _ model features = Some probas ∧
     probas !! 0%nat = Some row ∧ (length row < 2)%nat) ->
  predict Label Prob joblib_load model_path features w =
    (inl IndexError, mkWorld (shown w) (load_calls w ++ [model_path])).
Proof.
  intros Hl Hp Hcase.
  unfold predict, bind, load, call, lift, ret, raise, index.
  rewrite Hl, Hp; simpl.
  destruct Hcase as [-> | (probas & row & Hpp & Hr & Hlen)]; [done|].
  destruct (labels !! 0%nat); [|done].
  rewrite Hpp, Hr; simpl.
  destruct row as [|p0 [|p1 row]]; simpl in *; [done | done | lia].
Qed.

(** X15.  [predict] returns a label and a probability exactly when the
    file loads and the classifier answers with a first label and a
    second entry in its first probability row, and it returns those
    two. *)
Theorem predict_returns_iff (model_path : string) (features : list (list Z))
    (w : World) (label : Label) (exceed_prob : Prob) :
  fst (predict Label Prob joblib_load model_path features w)
    = inr (label, exceed_prob)
  ↔ answers joblib_load model_path features label exceed_prob.
Proof.
  split.
  - unfold predict, bind, load, call, lift, ret, raise, index, answers.
    repeat (case_match; simplify_eq/=; try done).
    intros [= -> ->]. by exists m, l, l1, l2.
  - intros Ha. by rewrite (predict_answers _ _ _ _ _ Ha).
Qed.

End RunnerOutcomes.

Lemma unknown_activity_key_error_witness :
  (activity jogging_form ∉ activity_options) ∧
  app bool Q sample_truthy sample_percent disk_of_contrarians
      jogging_form false empty_world =
    (inl (KeyError "Jogging"), mkWorld ([] ++ page_head) []).
Proof.
  assert (Hnot : activity jogging_form ∉ activity_options) by by_decide.
  split; [exact Hnot|].
  exact (unknown_activity_key_error bool Q sample_truthy sample_percent
           disk_of_contrarians jogging_form false empty_world Hnot).
Defined.

Lemma all_answers_show_four_results_witness :
  let g := mkGlobals scenario_form 1 1 in
  let line := result_line bool Q sample_truthy sample_percent in
  module_globals scenario_form = inr g ∧
  answers disk_of_contrarians "model_CO2.pkl" (get_features_co2 g)
    false (9 # 10) ∧
  app bool Q sample_truthy sample_percent disk_of_contrarians
      scenario_form true empty_world =
    (inr tt,
     mkWorld
       ([] ++ page_head ++
        [results_head;
         line "🌡️ Temperature" false (9 # 10);
         line "💧 Relative Humidity" false (9 # 10);
         line "🫁 PM2.5" false (9 # 10);
         line "😮‍💨 CO2" false (9 # 10)])
       ([] ++ model_paths)).
Proof.
  intros g line.
  assert (Ha : ∀ path features,
             answers disk_of_contrarians path features false (9 # 10)).
  { intros path features.
    exists (constant_model false (1 # 10) (9 # 10)), [false],
      [[1 # 10; 9 # 10]], [1 # 10; 9 # 10].
    repeat split; reflexivity. }
  split; [reflexivity|]. split; [apply Ha|].
  exact (all_answers_show_four_results bool Q sample_truthy sample_percent
           disk_of_contrarians scenario_form g empty_world
           false false false false (9 # 10) (9 # 10) (9 # 10) (9 # 10)
           eq_refl (Ha _ _) (Ha _ _) (Ha _ _) (Ha _ _)).
Defined.

Lemma result_line_reveals_label_witness :
  result_line bool Q sample_truthy sample_percent "CO2" true (1 # 10) =
    result_line bool Q sample_truthy sample_percent "CO2" true (2 # 20) ∧
  sample_truthy true = sample_truthy true.
Proof.
  assert (Hline : result_line bool Q sample_truthy sample_percent
                    "CO2" true (1 # 10) =
                  result_line bool Q sample_truthy sample_percent
                    "CO2" true (2 # 20)) by reflexivity.
  split; [exact Hline|].
  exact (result_line_reveals_label bool Q sample_truthy sample_percent
           "CO2" "CO2" true true (1 # 10) (2 # 20) Hline).
Defined.

Lemma predict_index_error_witness :
  disk_of_single_class "model_RH.pkl" =
    Some (mkModel bool Q (fun _ => Some [true]) (fun _ => Some [[1 # 1]])) ∧
  predict bool Q disk_of_single_class "model_RH.pkl" [[0; 0; 1]] empty_world =
    (inl IndexError, mkWorld [] ([] ++ ["model_RH.pkl"])).
Proof.
  split; [reflexivity|].
  refine (predict_index_error bool Q disk_of_single_class "model_RH.pkl"
            [[0; 0; 1]] empty_world _ [true] eq_refl eq_refl _).
  right. exists [[1 # 1]], [1 # 1].
  split; [reflexivity|]. split; [reflexivity|]. simpl. lia.
Defined.

Lemma predict_returns_iff_witness :
  answers disk_of_contrarians "model_Temp.pkl" [[0; 0; 0]] false (9 # 10).
Proof.
  apply (proj1 (predict_returns_iff bool Q disk_of_contrarians
                  "model_Temp.pkl" [[0; 0; 0]] empty_world false (9 # 10))).
  reflexivity.
Defined.
